(** * A shallow embedding of the prefixed logrus text formatter

    The Go package [prefixed] (file [formatter.go]) renders one logrus entry
    into one line of text.  Go strings are byte sequences: they are modelled by
    [string], whose characters are the 256 byte values.  The field mapping
    [logrus.Fields] (a Go [map[string]interface{}]) is a [gmap string Value];
    since ranging over a Go map yields the keys in an unspecified order, the
    order produced by the [for k := range entry.Data] loop of one call is an
    explicit argument of [Format]. *)

From Stdlib Require Import ZArith Ascii String.
From stdpp Require Import base option list gmap strings sorting pretty.

Open Scope string_scope.

(** ** Bytes and strings *)

Definition byte_of (n : N) : ascii := ascii_of_N n.
Definition code (c : ascii) : N := N_of_ascii c.

Fixpoint bytes (l : list N) : string :=
  match l with
  | [] => ""
  | n :: l => String (byte_of n) (bytes l)
  end.

Definition NL : ascii := byte_of 10.

(** [len] is Go's [len] on strings: a number of bytes. *)
Definition len (s : string) : Z := Z.of_nat (String.length s).

Fixpoint forall_bytes (p : ascii → bool) (s : string) : bool :=
  match s with
  | "" => true
  | String c s => p c && forall_bytes p s
  end.

Fixpoint exists_byte (p : ascii → bool) (s : string) : bool :=
  match s with
  | "" => false
  | String c s => p c || exists_byte p s
  end.

Fixpoint spaces (n : nat) : string :=
  match n with
  | O => ""
  | S n => String " " (spaces n)
  end.

Fixpoint concat_strings (l : list string) : string :=
  match l with
  | [] => ""
  | s :: l => s +:+ concat_strings l
  end.

(** [s[n:]] *)
Fixpoint drop_bytes (n : nat) (s : string) : string :=
  match n, s with
  | O, _ => s
  | S n, String _ s => drop_bytes n s
  | S _, "" => ""
  end.

(** ** The Go standard library, as far as the formatter calls it *)

(** [strings.ToUpper] on ASCII text (it is only applied to level names). *)
Definition upper_byte (c : ascii) : ascii :=
  if (97 <=? code c)%N && (code c <=? 122)%N then byte_of (code c - 32) else c.

Fixpoint strings_ToUpper (s : string) : string :=
  match s with
  | "" => ""
  | String c s => String (upper_byte c) (strings_ToUpper s)
  end.

(** [strings.ContainsRune(s, '\n')]: the rune is a single byte. *)
Definition strings_ContainsRune (s : string) (c : ascii) : bool :=
  exists_byte (λ x, bool_decide (x = c)) s.

(** [strings.Replace(s, old, new, -1)] for a one-byte [old]. *)
Fixpoint strings_Replace (s : string) (old : ascii) (new : string) : string :=
  match s with
  | "" => ""
  | String c s =>
      if bool_decide (c = old) then new +:+ strings_Replace s old new
      else String c (strings_Replace s old new)
  end.

(** [strings.Repeat(" ", count)] panics on a negative count ([None]). *)
Definition strings_Repeat_space (count : Z) : option string :=
  if (count <? 0)%Z then None else Some (spaces (Z.to_nat count)).

(** [unicode.IsSpace] on the UTF-8 encoding.  The one-byte white space
    characters are tab, line feed, vertical tab, form feed, carriage return and
    space; U+0085 and U+00A0 take two bytes; U+1680, U+2000 to U+200A, U+2028,
    U+2029, U+202F, U+205F and U+3000 take three. *)
Definition space1 (c : ascii) : bool :=
  ((9 <=? code c)%N && (code c <=? 13)%N) || (code c =? 32)%N.

Definition space2 (c1 c2 : ascii) : bool :=
  (code c1 =? 194)%N && ((code c2 =? 133)%N || (code c2 =? 160)%N).

Definition space3 (c1 c2 c3 : ascii) : bool :=
  ((code c1 =? 225)%N && (code c2 =? 154)%N && (code c3 =? 128)%N)
  || ((code c1 =? 226)%N && (code c2 =? 128)%N
      && (((128 <=? code c3)%N && (code c3 <=? 138)%N)
          || (code c3 =? 168)%N || (code c3 =? 169)%N || (code c3 =? 175)%N))
  || ((code c1 =? 226)%N && (code c2 =? 129)%N && (code c3 =? 159)%N)
  || ((code c1 =? 227)%N && (code c2 =? 128)%N && (code c3 =? 128)%N).

(** Leading white space is removed rune by rune. *)
Fixpoint trim_left_space (s : string) : string :=
  match s with
  | "" => ""
  | String c1 s1 =>
      if space1 c1 then trim_left_space s1
      else match s1 with
           | "" => s
           | String c2 s2 =>
               if space2 c1 c2 then trim_left_space s2
               else match s2 with
                    | "" => s
                    | String c3 s3 =>
                        if space3 c1 c2 c3 then trim_left_space s3 else s
                    end
           end
  end.

(** Trailing white space, read on the reversed string: the last byte of the
    encoding comes first. *)
Fixpoint trim_left_space_rev (s : string) : string :=
  match s with
  | "" => ""
  | String c1 s1 =>
      if space1 c1 then trim_left_space_rev s1
      else match s1 with
           | "" => s
           | String c2 s2 =>
               if space2 c2 c1 then trim_left_space_rev s2
               else match s2 with
                    | "" => s
                    | String c3 s3 =>
                        if space3 c3 c2 c1 then trim_left_space_rev s3 else s
                    end
           end
  end.

Definition trim_right_space (s : string) : string :=
  String.rev (trim_left_space_rev (String.rev s)).

(** [strings.TrimSpace]: leading and trailing white space removed. *)
Definition strings_TrimSpace (s : string) : string :=
  trim_right_space (trim_left_space s).

(** [sort.Strings]: increasing byte-wise order, [String.le]. *)
Definition sort_Strings (l : list string) : list string :=
  merge_sort String.le l.

(** The regular expression [^\[(.*?)\]] of [extractPrefix].  [regex_tag s]
    scans what follows the opening bracket: the lazy [.*?] stops at the first
    closing bracket, and [.] matches no line feed.  The result is the text
    between the brackets. *)
Fixpoint regex_tag (s : string) : option string :=
  match s with
  | "" => None
  | String c s =>
      if bool_decide (c = "]"%char) then Some ""
      else if bool_decide (c = NL) then None
      else match regex_tag s with
           | Some t => Some (String c t)
           | None => None
           end
  end.

(** [regex.FindString], with [None] when [regex.MatchString] is false. *)
Definition regex_FindString (msg : string) : option string :=
  match msg with
  | String "[" s =>
      match regex_tag s with
      | Some t => Some ("[" +:+ t +:+ "]")
      | None => None
      end
  | _ => None
  end.

(** ** Formatting verbs of package [fmt] *)

(** [%5s] (the [+] flag has no effect on [%s]): right-aligned in a field of at
    least [w] characters.  The width counts runes; the labels it is applied to
    are ASCII. *)
Definition fmt_pad_left (w : nat) (s : string) : string :=
  spaces (w - String.length s) +:+ s.

(** [%d] *)
Definition fmt_d (n : Z) : string := pretty n.

(** [%04d]: zeros up to four characters, the sign included. *)
Definition fmt_04d (n : Z) : string :=
  if (n <? 0)%Z then
    let d := pretty (Z.abs_N n) in
    "-" +:+ bytes (replicate (3 - String.length d) 48%N) +:+ d
  else
    let d := pretty (Z.to_N n) in
    bytes (replicate (4 - String.length d) 48%N) +:+ d.


(** ** Field values *)

(** A value of a field is a Go [interface{}].  The formatter distinguishes
    strings, errors (by their [Error()] text) and everything else, which it
    hands to [fmt]; integers and booleans are given with their printing rule,
    any other value by its two printed forms, under [%v] and under [%+v]. *)
Inductive Value : Type :=
  | VNil
  | VString (s : string)
  | VError (errmsg : string)
  | VInt (n : Z)
  | VBool (b : bool)
  | VOther (v plusv : string).

(** [fmt.Fprint(value)] and [fmt.Sprint(value)] ([plus = false]), and the verb
    [%+v] ([plus = true]). *)
Definition fmt_v (plus : bool) (value : Value) : string :=
  match value with
  | VNil => "<nil>"
  | VString s => s
  | VError errmsg => errmsg
  | VInt n => fmt_d n
  | VBool b => if b then "true" else "false"
  | VOther v plusv => if plus then plusv else v
  end.

(** ** Package logrus *)

Definition logrus_Level : Type := N.
Definition PanicLevel : logrus_Level := 0%N.
Definition FatalLevel : logrus_Level := 1%N.
Definition ErrorLevel : logrus_Level := 2%N.
Definition WarnLevel : logrus_Level := 3%N.
Definition InfoLevel : logrus_Level := 4%N.
Definition DebugLevel : logrus_Level := 5%N.

(** [Level.String()] *)
Definition Level_String (level : logrus_Level) : string :=
  if (level =? DebugLevel)%N then "debug"
  else if (level =? InfoLevel)%N then "info"
  else if (level =? WarnLevel)%N then "warning"
  else if (level =? ErrorLevel)%N then "error"
  else if (level =? FatalLevel)%N then "fatal"
  else if (level =? PanicLevel)%N then "panic"
  else "unknown".

(** ** What the formatter takes from outside the package

    Wall-clock times and their layouts (package [time]), the quoting of [%q]
    ([strconv.Quote]), the padding of [%-<n>s], [filepath.Base] and the escape
    sequences of package [ansi] are not part of this package: the development
    is parametric in them. *)
Class GoLib : Type := {
  time_Time : Type;
  Time_Format : time_Time → string → string;
  time_Stamp : string;
  strconv_Quote : string → string;
  fmt_pad_right : Z → string → string;
  filepath_Base : string → string;
  ansi_Reset : string;
  ansi_Green : string;
  ansi_Yellow : string;
  ansi_Red : string;
  ansi_Blue : string;
  ansi_Cyan : string;
  ansi_LightBlack : string
}.

(** The state of the process a call observes: the package variable
    [isTerminal], [runtime.GOOS], the value of [miniTS()], and the frame that
    [runtime.Caller(6)] reports (function name, file, line). *)
Record World : Type := {
  isTerminal : bool;
  runtime_GOOS : string;
  miniTS : Z;
  caller_name : string;
  caller_file : string;
  caller_line : Z
}.

Record TextFormatter : Type := {
  ForceColors : bool;
  DisableColors : bool;
  DisableTimestamp : bool;
  ShortTimestamp : bool;
  DisableSorting : bool;
  IndentMultilineMessage : bool;
  TimestampFormat : string;
  SpacePadding : Z
}.

(** [bytes.Buffer] and [io.Writer]: the bytes written so far. *)
Definition Buffer : Type := string.
Definition WriteString (b : Buffer) (s : string) : Buffer := b +:+ s.
Definition WriteByte (b : Buffer) (c : ascii) : Buffer := b +:+ String c "".

Definition error : Type := string.

Definition reset `{GoLib} : string := ansi_Reset.

(** The characters that [needsQuoting] lets through. *)
Definition plain (ch : ascii) : bool :=
  (("a" <=? ch) && (ch <=? "z")
   || ("A" <=? ch) && (ch <=? "Z")
   || ("0" <=? ch) && (ch <=? "9")
   || bool_decide (ch = "-") || bool_decide (ch = "."))%char.

(** The loop ranges over the runes of [text]; a rune that is not a single
    ASCII byte is outside all the ranges, as is each of its bytes.  Note the
    sense of the result: [true] says that [text] is written as it is. *)
Fixpoint needsQuoting (text : string) : bool :=
  match text with
  | "" => true
  | String ch text => if negb (plain ch) then false else needsQuoting text
  end.

(** The texts that the group [(.*?)] can hold: no closing bracket, no line
    feed. *)
Definition in_tag (t : string) : bool :=
  forall_bytes
    (λ c, negb (bool_decide (c = "]"%char)) && negb (bool_decide (c = NL))) t.

Definition extractPrefix (msg : string) : string * string :=
  match regex_FindString msg with
  | Some match_ =>
      (substring 1 (String.length match_ - 2) match_,
       strings_TrimSpace (drop_bytes (String.length match_) msg))
  | None => ("", msg)
  end.

Definition prefixFieldClashes (data : gmap string Value) : gmap string Value :=
  let data :=
    match data !! "time" with
    | Some v => <["fields.time" := v]> data
    | None => data
    end in
  let data :=
    match data !! "msg" with
    | Some v => <["fields.msg" := v]> data
    | None => data
    end in
  match data !! "level" with
  | Some v => <["fields.level" := v]> data
  | None => data
  end.

(** [entry.Data[key]]: a missing key reads as the nil interface. *)
Definition index (data : gmap string Value) (key : string) : Value :=
  default VNil (data !! key).

Section Formatter.
Context `{lib : GoLib}.

Record Entry : Type := {
  Data : gmap string Value;
  Time : time_Time;
  Level : logrus_Level;
  Message : string
}.

Definition appendKeyValue (b : Buffer) (key : string) (value : Value) : Buffer :=
  let b := WriteString b key in
  let b := WriteByte b "=" in
  let b :=
    match value with
    | VString value =>
        if needsQuoting value then WriteString b value
        else WriteString b (strconv_Quote value)
    | VError errmsg =>
        if needsQuoting errmsg then WriteString b errmsg
        else WriteString b (strconv_Quote errmsg)
    | _ => WriteString b (fmt_v false value)
    end in
  WriteByte b " ".

(** The [switch entry.Level] of [printColored]: the colour of the level and
    the diagnostic suffix of the debug level. *)
Definition levelStyle (w : World) (level : logrus_Level) : string * string :=
  if (level =? InfoLevel)%N then (ansi_Green, "")
  else if (level =? WarnLevel)%N then (ansi_Yellow, "")
  else if (level =? ErrorLevel)%N || (level =? FatalLevel)%N
          || (level =? PanicLevel)%N then (ansi_Red, "")
  else if (level =? DebugLevel)%N then
    (ansi_Blue,
     " [" +:+ caller_name w +:+ "][" +:+ filepath_Base (caller_file w)
       +:+ "][" +:+ fmt_d (caller_line w) +:+ "]")
  else (ansi_Blue, "").

Definition levelText (level : logrus_Level) : string :=
  if negb (level =? WarnLevel)%N then strings_ToUpper (Level_String level)
  else "WARN".

(** [fmt.Sprint(" ", ansi.Cyan, pfx, ":", reset)]: no space is added next to
    a string operand. *)
Definition prefixTag (pfx : Value) : string :=
  " " +:+ ansi_Cyan +:+ fmt_v false pfx +:+ ":" +:+ reset.

(** The variables [prefix] and [message] of [printColored]. *)
Definition prefixAndMessage (entry : Entry) : string * string :=
  match Data entry !! "prefix" with
  | Some pfx => (prefixTag pfx, Message entry)
  | None =>
      let '(pfx, trimmed) := extractPrefix (Message entry) in
      if (0 <? len pfx)%Z then (prefixTag (VString pfx), trimmed)
      else ("", Message entry)
  end.

Definition messageFormat (f : TextFormatter) : string → string :=
  if (SpacePadding f =? 0)%Z then λ s, s
  else fmt_pad_right (SpacePadding f).

(** The first [fmt.Fprintf] of [printColored], in its three forms. *)
Definition header (f : TextFormatter) (w : World) (entry : Entry)
    (timestampFormat levelColor debugInf prefix : string) : string :=
  let tail :=
    reset +:+ " " +:+ levelColor +:+ fmt_pad_left 5 (levelText (Level entry))
      +:+ reset +:+ debugInf +:+ prefix +:+ " " in
  if DisableTimestamp f then ansi_LightBlack +:+ tail
  else if ShortTimestamp f then
    ansi_LightBlack +:+ "[" +:+ fmt_04d (miniTS w) +:+ "]" +:+ tail
  else
    ansi_LightBlack +:+ "[" +:+ Time_Format (Time entry) timestampFormat
      +:+ "]" +:+ tail.

Definition printField (levelColor : string) (entry : Entry)
    (wr : Buffer) (k : string) : Buffer :=
  wr +:+ " " +:+ levelColor +:+ k +:+ reset +:+ "="
     +:+ fmt_v true (index (Data entry) k).

(** [None] stands for a panic (of [strings.Repeat]). *)
Definition printColored (f : TextFormatter) (w : World) (wr : Buffer)
    (entry : Entry) (keys : list string) (timestampFormat : string)
    : option Buffer :=
  let '(levelColor, debugInf) := levelStyle w (Level entry) in
  let '(prefix, message) := prefixAndMessage entry in
  let h := header f w entry timestampFormat levelColor debugInf prefix in
  let wr := wr +:+ h in
  let padlen := len h in
  let wr :=
    if IndentMultilineMessage f && strings_ContainsRune message NL then
      let padlen :=
        (padlen - (len ansi_LightBlack + len levelColor + 2 * len reset))%Z in
      let padlen :=
        if negb (prefix =? "") then (padlen - (len ansi_Cyan + len reset))%Z
        else padlen in
      match strings_Repeat_space padlen with
      | Some pad =>
          Some (wr +:+ messageFormat f
                         (strings_Replace message NL (String NL pad)))
      | None => None
      end
    else Some (wr +:+ messageFormat f message) in
  match wr with
  | Some wr => Some (foldl (printField levelColor entry) wr keys)
  | None => None
  end.

(** The colouring decision of [Format]. *)
Definition isColored (f : TextFormatter) (w : World) : bool :=
  let isColorTerminal := isTerminal w && negb (runtime_GOOS w =? "windows") in
  (ForceColors f || isColorTerminal) && negb (DisableColors f).

(** The first lines of [Format]: the keys of the range loop without
    ["prefix"], sorted unless sorting is disabled. *)
Definition fieldKeys (f : TextFormatter) (range : list string) : list string :=
  let keys := filter (λ k, k ≠ "prefix") range in
  if negb (DisableSorting f) then sort_Strings keys else keys.

(** The rest of [Format], from [b := &bytes.Buffer{}] on.  The result is the
    entry as the call leaves it (its field mapping is updated in place) and
    what is returned: [None] for a panic, otherwise the bytes and the error. *)
Definition formatKeys (f : TextFormatter) (w : World) (keys : list string)
    (entry : Entry) : Entry * option (string * option error) :=
  let b : Buffer := "" in
  let entry :=
    {| Data := prefixFieldClashes (Data entry); Time := Time entry;
       Level := Level entry; Message := Message entry |} in
  let timestampFormat :=
    if TimestampFormat f =? "" then time_Stamp else TimestampFormat f in
  let b :=
    if isColored f w then printColored f w b entry keys timestampFormat
    else
      let b :=
        if negb (DisableTimestamp f) then
          appendKeyValue b "time"
            (VString (Time_Format (Time entry) timestampFormat))
        else b in
      let b := appendKeyValue b "level" (VString (Level_String (Level entry))) in
      let b :=
        if negb (Message entry =? "") then
          appendKeyValue b "msg" (VString (Message entry))
        else b in
      Some (foldl (λ b key, appendKeyValue b key (index (Data entry) key))
              b keys) in
  (entry,
   match b with
   | Some b => Some (WriteByte b NL, None)
   | None => None
   end).

(** [range] is the order in which the [for k := range entry.Data] loop of
    this call yields the keys of the field mapping. *)
Definition Format (f : TextFormatter) (w : World) (range : list string)
    (entry : Entry) : Entry * option (string * option error) :=
  formatKeys f w (fieldKeys f range) entry.

(** ** The specification's words *)

(** The non-colored template: [key=<value> ] for the time, the level, the
    message and each field, then a line feed. *)
Definition unquoted (s : string) : bool :=
  forall_bytes
    (λ c, let n := code c in
          ((65 <=? n) && (n <=? 90) || (97 <=? n) && (n <=? 122)
           || (48 <=? n) && (n <=? 57) || (n =? 45) || (n =? 46))%N)
    s.

Definition valueText (v : Value) : string :=
  match v with
  | VString s | VError s => if unquoted s then s else strconv_Quote s
  | _ => fmt_v false v
  end.

Definition pairText (key : string) (v : Value) : string :=
  key +:+ "=" +:+ valueText v +:+ " ".

Definition stampOf (f : TextFormatter) (entry : Entry) : string :=
  Time_Format (Time entry)
    (if TimestampFormat f =? "" then time_Stamp else TimestampFormat f).

Definition plainLine (f : TextFormatter) (entry : Entry)
    (keys : list string) : string :=
  (if DisableTimestamp f then "" else pairText "time" (VString (stampOf f entry)))
  +:+ pairText "level" (VString (Level_String (Level entry)))
  +:+ (if Message entry =? "" then "" else pairText "msg" (VString (Message entry)))
  +:+ concat_strings
        (map (λ k, pairText k (index (prefixFieldClashes (Data entry)) k)) keys)
  +:+ String NL "".

(** The header of a colored line without its colour sequences. *)
Definition stampBlock (f : TextFormatter) (w : World) (entry : Entry) : string :=
  if DisableTimestamp f then ""
  else if ShortTimestamp f then "[" +:+ fmt_04d (miniTS w) +:+ "]"
  else "[" +:+ stampOf f entry +:+ "]".

Definition severityLabel (level : logrus_Level) : string :=
  if (level =? WarnLevel)%N then "WARN" else strings_ToUpper (Level_String level).

Definition rightAligned (w : nat) (s : string) : string :=
  if (String.length s <? w)%nat then spaces (w - String.length s) +:+ s else s.

Definition visibleHeader (f : TextFormatter) (w : World) (entry : Entry)
    (debugInf : string) (tag : option string) : string :=
  stampBlock f w entry +:+ " " +:+ rightAligned 5 (severityLabel (Level entry))
  +:+ debugInf
  +:+ match tag with Some t => " " +:+ t +:+ ":" | None => "" end
  +:+ " ".

(** The lines of a text, and the text with each line after the first moved
    right by [n] spaces. *)
Fixpoint lines (s : string) : list string :=
  match s with
  | "" => [""]
  | String c s =>
      if bool_decide (c = NL) then "" :: lines s
      else match lines s with
           | l :: ls => String c l :: ls
           | [] => [String c ""]
           end
  end.

Definition indented (n : nat) (ls : list string) : string :=
  match ls with
  | [] => ""
  | l :: ls => l +:+ concat_strings (map (λ l, String NL (spaces n +:+ l)) ls)
  end.

(** The fields of a colored line. *)
Definition coloredFields (levelColor : string) (entry : Entry)
    (keys : list string) : string :=
  concat_strings
    (map (λ k, " " +:+ levelColor +:+ k +:+ reset +:+ "="
                 +:+ fmt_v true (index (Data entry) k)) keys).

(** The prefix tag of a colored line, if any, and the message it displays:
    the ["prefix"] field first, otherwise the tag that [extractPrefix] finds
    in front of the message. *)
Definition tagOf (entry : Entry) : option string :=
  match Data entry !! "prefix" with
  | Some pfx => Some (fmt_v false pfx)
  | None =>
      let t := fst (extractPrefix (Message entry)) in
      if bool_decide (t = "") then None else Some t
  end.

Definition displayedMessage (entry : Entry) : string :=
  match Data entry !! "prefix", tagOf entry with
  | None, Some _ => snd (extractPrefix (Message entry))
  | _, _ => Message entry
  end.

Definition coloredTag (tag : option string) : string :=
  match tag with
  | Some t => " " +:+ ansi_Cyan +:+ t +:+ ":" +:+ ansi_Reset
  | None => ""
  end.

Definition coloredHeader (f : TextFormatter) (w : World) (entry : Entry) : string :=
  ansi_LightBlack +:+ stampBlock f w entry +:+ ansi_Reset +:+ " "
  +:+ fst (levelStyle w (Level entry))
  +:+ rightAligned 5 (severityLabel (Level entry)) +:+ ansi_Reset
  +:+ snd (levelStyle w (Level entry)) +:+ coloredTag (tagOf entry) +:+ " ".

(** The colour sequences inside the header. *)
Definition controlBytes (w : World) (entry : Entry) : string :=
  ansi_LightBlack +:+ ansi_Reset +:+ fst (levelStyle w (Level entry))
  +:+ ansi_Reset
  +:+ match tagOf entry with
      | Some _ => ansi_Cyan +:+ ansi_Reset
      | None => ""
      end.

Definition visibleWidth (f : TextFormatter) (w : World) (entry : Entry) : nat :=
  String.length
    (visibleHeader f w entry (snd (levelStyle w (Level entry))) (tagOf entry)).

Definition coloredBody (f : TextFormatter) (w : World) (entry : Entry) : string :=
  if IndentMultilineMessage f
     && strings_ContainsRune (displayedMessage entry) NL
  then indented (visibleWidth f w entry) (lines (displayedMessage entry))
  else displayedMessage entry.

Definition coloredLine (f : TextFormatter) (w : World) (entry : Entry)
    (keys : list string) : string :=
  coloredHeader f w entry +:+ messageFormat f (coloredBody f w entry)
  +:+ coloredFields (fst (levelStyle w (Level entry)))
        {| Data := prefixFieldClashes (Data entry); Time := Time entry;
           Level := Level entry; Message := Message entry |} keys
  +:+ String NL "".

(** [range] lists each key of [data] once: it is a possible order of the
    range loop over [data]. *)
Definition is_range (data : gmap string Value) (range : list string) : bool :=
  bool_decide (NoDup range)
  && forallb (λ k, bool_decide (is_Some (data !! k))) range
  && (length range =? size data)%nat.

(** A field mapping filled by assignments [data[k] = v], in this order. *)
Definition assign (ins : list (string * Value)) : gmap string Value :=
  foldl (λ data kv, <[kv.1 := kv.2]> data) ∅ ins.

End Formatter.

(** ** An instance for running the formatter

    [quote_ascii] is [strconv.Quote] on ASCII text (other bytes are written
    as [\x] escapes, which is what [strconv.Quote] does with bytes that are not
    valid UTF-8); times are given by their printed form; the escape sequences
    are those of an ANSI terminal. *)

Definition hex_digit (n : N) : ascii :=
  if (n <? 10)%N then byte_of (48 + n) else byte_of (87 + n).

Definition quote_byte (c : ascii) : string :=
  let n := code c in
  if (n =? 34)%N || (n =? 92)%N then String "\" (String c "")
  else if (32 <=? n)%N && (n <? 127)%N then String c ""
  else if (n =? 7)%N then "\a"
  else if (n =? 8)%N then "\b"
  else if (n =? 12)%N then "\f"
  else if (n =? 10)%N then "\n"
  else if (n =? 13)%N then "\r"
  else if (n =? 9)%N then "\t"
  else if (n =? 11)%N then "\v"
  else "\x" +:+ String (hex_digit (n / 16)) (String (hex_digit (n mod 16)) "").

Fixpoint quote_bytes (s : string) : string :=
  match s with
  | "" => ""
  | String c s => quote_byte c +:+ quote_bytes s
  end.

Definition DQ : string := String (byte_of 34) "".

Definition quote_ascii (s : string) : string := DQ +:+ quote_bytes s +:+ DQ.

Definition ESC : string := String (byte_of 27) "".

Definition ttyLib : GoLib := {|
  time_Time := string;
  Time_Format := λ t _, t;
  time_Stamp := "Jan _2 15:04:05";
  strconv_Quote := quote_ascii;
  fmt_pad_right := λ n s, s +:+ spaces (Z.abs_nat n - String.length s);
  filepath_Base := λ s, s;
  ansi_Reset := ESC +:+ "[0m";
  ansi_Green := ESC +:+ "[32m";
  ansi_Yellow := ESC +:+ "[33m";
  ansi_Red := ESC +:+ "[31m";
  ansi_Blue := ESC +:+ "[34m";
  ansi_Cyan := ESC +:+ "[36m";
  ansi_LightBlack := ESC +:+ "[90m"
|}.

Definition mkEntry (data : gmap string Value) (level : logrus_Level)
    (message : string) : @Entry ttyLib :=
  @Build_Entry ttyLib data "Jan  2 15:04:05" level message.

(** Colors disabled, no timestamp. *)
Definition plainFormatter (disableSorting : bool) : TextFormatter := {|
  ForceColors := false; DisableColors := true; DisableTimestamp := true;
  ShortTimestamp := false; DisableSorting := disableSorting;
  IndentMultilineMessage := false; TimestampFormat := ""; SpacePadding := 0
|}.

(** Colors forced, elapsed seconds as timestamp, indentation on. *)
Definition colorFormatter : TextFormatter := {|
  ForceColors := true; DisableColors := false; DisableTimestamp := false;
  ShortTimestamp := true; DisableSorting := false;
  IndentMultilineMessage := true; TimestampFormat := ""; SpacePadding := 0
|}.

Definition someWorld : World := {|
  isTerminal := false; runtime_GOOS := "linux"; miniTS := 3;
  caller_name := "main.main"; caller_file := "main.go"; caller_line := 10
|}.

(** Entries used as examples. *)
Definition clashEntry : @Entry ttyLib :=
  mkEntry {["level" := VString "x"]} InfoLevel "hi".

Definition abEntry : @Entry ttyLib :=
  mkEntry (assign [("b", VInt 1); ("a", VInt 2)]) InfoLevel "".

Definition workerEntry : @Entry ttyLib :=
  mkEntry ∅ InfoLevel "[worker] started job".

Definition trailingEntry : @Entry ttyLib :=
  mkEntry ∅ InfoLevel "[worker] started job ".

Definition prefixedEntry : @Entry ttyLib :=
  mkEntry {["prefix" := VString "db"]} InfoLevel "[worker] started job".

Definition twoLineEntry : @Entry ttyLib :=
  mkEntry ∅ WarnLevel ("[worker] started" +:+ String NL "job").

(** ** Strings *)

Lemma sapp_cons (c : ascii) (s t : string) :
  String c s +:+ t = String c (s +:+ t).
Proof. reflexivity. Qed.

Lemma sapp_nil_l (s : string) : "" +:+ s = s.
Proof. reflexivity. Qed.

Lemma sapp_nil_r (s : string) : s +:+ "" = s.
Proof. induction s as [|c s IH]; [done | by rewrite sapp_cons, IH]. Qed.

Lemma sapp_assoc (s1 s2 s3 : string) : (s1 +:+ s2) +:+ s3 = s1 +:+ s2 +:+ s3.
Proof. induction s1 as [|c s1 IH]; [done | by rewrite !sapp_cons, IH]. Qed.

Lemma length_sapp (s1 s2 : string) :
  String.length (s1 +:+ s2) = (String.length s1 + String.length s2)%nat.
Proof.
  induction s1 as [|c s1 IH]; [done |].
  rewrite sapp_cons. cbn. by rewrite IH.
Qed.

Lemma length_spaces (n : nat) : String.length (spaces n) = n.
Proof. induction n as [|n IH]; cbn; [done | by rewrite IH]. Qed.

Lemma len_app (s1 s2 : string) : len (s1 +:+ s2) = (len s1 + len s2)%Z.
Proof. unfold len. rewrite length_sapp. lia. Qed.

Lemma len_nonneg (s : string) : (0 ≤ len s)%Z.
Proof. unfold len. lia. Qed.

Lemma concat_strings_app (l1 l2 : list string) :
  concat_strings (l1 ++ l2) = concat_strings l1 +:+ concat_strings l2.
Proof.
  induction l1 as [|s l1 IH]; cbn; [done |].
  by rewrite IH, sapp_assoc.
Qed.

Lemma concat_strings_ext {A} (g h : A → string) (l : list A) :
  (∀ x, x ∈ l → g x = h x) →
  concat_strings (map g l) = concat_strings (map h l).
Proof.
  induction l as [|x l IH]; intros Hgh; cbn; [done |].
  rewrite Hgh by left. rewrite IH; [done |].
  intros y Hy. apply Hgh. by right.
Qed.

(** A left fold that appends one piece per element writes the pieces in
    order. *)
Lemma foldl_write {A} (piece : A → string) (l : list A) (b : string) :
  foldl (λ b x, b +:+ piece x) b l = b +:+ concat_strings (map piece l).
Proof.
  revert b. induction l as [|x l IH]; intros b; cbn.
  - by rewrite sapp_nil_r.
  - by rewrite IH, sapp_assoc.
Qed.

Lemma plain_spec (c : ascii) :
  plain c =
  (let n := code c in
   ((65 <=? n) && (n <=? 90) || (97 <=? n) && (n <=? 122)
    || (48 <=? n) && (n <=? 57) || (n =? 45) || (n =? 46))%N).
Proof. by destruct c as [[] [] [] [] [] [] [] []]. Qed.

Lemma needsQuoting_unquoted (s : string) : needsQuoting s = unquoted s.
Proof.
  unfold unquoted. induction s as [|c s IH]; cbn; [done |].
  rewrite <- plain_spec, <- IH. by destruct (plain c).
Qed.

(** ** The keys of a call *)

Lemma is_range_Permutation (data : gmap string Value) (range : list string) :
  is_range data range = true → range ≡ₚ elements (dom data).
Proof.
  unfold is_range. rewrite !andb_true_iff, bool_decide_eq_true, forallb_forall.
  intros [[Hnd Hin] Hlen]. apply Nat.eqb_eq in Hlen.
  apply submseteq_length_Permutation.
  - apply NoDup_submseteq; [done |]. intros k Hk.
    apply elem_of_elements, elem_of_dom.
    apply list_elem_of_In, Hin in Hk. by apply bool_decide_eq_true in Hk.
  - rewrite Hlen, <- size_dom. done.
Qed.

Lemma is_range_NoDup (data : gmap string Value) (range : list string) :
  is_range data range = true → NoDup range.
Proof.
  unfold is_range. rewrite !andb_true_iff, bool_decide_eq_true. tauto.
Qed.

Lemma fieldKeys_Permutation (f : TextFormatter) (range : list string) :
  fieldKeys f range ≡ₚ filter (λ k, k ≠ "prefix") range.
Proof.
  unfold fieldKeys, sort_Strings.
  destruct (DisableSorting f); cbn; [done | apply merge_sort_Permutation].
Qed.

Lemma fieldKeys_Sorted (f : TextFormatter) (range : list string) :
  DisableSorting f = false → Sorted String.le (fieldKeys f range).
Proof.
  intros Hs. unfold fieldKeys, sort_Strings. rewrite Hs. cbn.
  apply (Sorted_merge_sort String.le).
Qed.

Lemma fieldKeys_unsorted (f : TextFormatter) (range : list string) :
  DisableSorting f = true →
  fieldKeys f range = filter (λ k, k ≠ "prefix") range.
Proof. intros Hs. unfold fieldKeys. by rewrite Hs. Qed.

(** With sorting, the keys do not depend on the order of the range loop. *)
Lemma fieldKeys_sorted_unique (f : TextFormatter) (r1 r2 : list string) :
  DisableSorting f = false → r1 ≡ₚ r2 → fieldKeys f r1 = fieldKeys f r2.
Proof.
  intros Hs Hp.
  apply (Sorted_unique String.le); try by apply fieldKeys_Sorted.
  rewrite !fieldKeys_Permutation. by rewrite Hp.
Qed.

Lemma fieldKeys_no_prefix (f : TextFormatter) (range : list string) :
  "prefix" ∉ fieldKeys f range.
Proof.
  rewrite fieldKeys_Permutation. rewrite list_elem_of_filter. tauto.
Qed.

Lemma filter_no_prefix_idemp (range : list string) :
  filter (λ k, k ≠ "prefix") (filter (λ k, k ≠ "prefix") range)
  = filter (λ k, k ≠ "prefix") range.
Proof.
  induction range as [|k range IH]; [done |].
  rewrite (filter_cons _ k range). case_decide; [|done].
  rewrite filter_cons_True by done. by rewrite IH.
Qed.

Lemma fieldKeys_filter (f : TextFormatter) (range : list string) :
  fieldKeys f (filter (λ k, k ≠ "prefix") range) = fieldKeys f range.
Proof. unfold fieldKeys. by rewrite filter_no_prefix_idemp. Qed.

(** ** The collision renaming *)

Lemma prefixFieldClashes_lookup (data : gmap string Value) (k : string) :
  prefixFieldClashes data !! k =
  if decide (k = "fields.level") then
    match data !! "level" with Some v => Some v | None => data !! k end
  else if decide (k = "fields.msg") then
    match data !! "msg" with Some v => Some v | None => data !! k end
  else if decide (k = "fields.time") then
    match data !! "time" with Some v => Some v | None => data !! k end
  else data !! k.
Proof.
  unfold prefixFieldClashes.
  destruct (data !! "time") as [vt|] eqn:Ht;
    destruct (data !! "msg") as [vm|] eqn:Hm;
    destruct (data !! "level") as [vl|] eqn:Hl;
    repeat case_decide; simplify_map_eq; try done.
Qed.

Lemma prefixFieldClashes_delete_prefix (data : gmap string Value) (k : string) :
  k ≠ "prefix" →
  prefixFieldClashes (delete "prefix" data) !! k = prefixFieldClashes data !! k.
Proof.
  intros Hk. rewrite !prefixFieldClashes_lookup.
  rewrite !lookup_delete_ne by done. done.
Qed.

Lemma prefixFieldClashes_prefix (data : gmap string Value) :
  prefixFieldClashes data !! "prefix" = data !! "prefix".
Proof. rewrite prefixFieldClashes_lookup. by repeat case_decide. Qed.

(** A second renaming changes nothing. *)
Lemma prefixFieldClashes_idemp (data : gmap string Value) :
  prefixFieldClashes (prefixFieldClashes data) = prefixFieldClashes data.
Proof.
  apply map_eq. intros k.
  rewrite (prefixFieldClashes_lookup (prefixFieldClashes data)).
  rewrite !(prefixFieldClashes_lookup data).
  repeat case_decide; simplify_eq; try done;
    repeat match goal with
      | |- context [data !! ?k] => destruct (data !! k)
      end; done.
Qed.

Section Plain.
Context `{lib : GoLib}.

Lemma appendKeyValue_pairText (b : Buffer) (key : string) (v : Value) :
  appendKeyValue b key v = b +:+ pairText key v.
Proof.
  unfold appendKeyValue, pairText, valueText, WriteString, WriteByte.
  destruct v; rewrite ?needsQuoting_unquoted;
    try match goal with |- context [unquoted ?s] => destruct (unquoted s) end;
    by rewrite !sapp_assoc.
Qed.

Lemma foldl_appendKeyValue (data : gmap string Value) (keys : list string)
    (b : Buffer) :
  foldl (λ b key, appendKeyValue b key (index data key)) b keys
  = b +:+ concat_strings (map (λ k, pairText k (index data k)) keys).
Proof.
  revert b. induction keys as [|k keys IH]; intros b; cbn.
  - by rewrite sapp_nil_r.
  - by rewrite IH, appendKeyValue_pairText, sapp_assoc.
Qed.

Lemma formatKeys_plain (f : TextFormatter) (w : World) (keys : list string)
    (e : Entry) :
  isColored f w = false →
  snd (formatKeys f w keys e) = Some (plainLine f e keys, None).
Proof.
  intros Hc. unfold formatKeys. rewrite Hc. cbn [snd Data Time Level Message].
  do 2 f_equal. unfold plainLine, stampOf, WriteByte.
  rewrite foldl_appendKeyValue, !appendKeyValue_pairText.
  destruct (DisableTimestamp f), (Message e =? ""); cbn [negb];
    rewrite ?appendKeyValue_pairText, ?sapp_assoc, ?sapp_nil_l; done.
Qed.

Lemma DisableColors_isColored (f : TextFormatter) (w : World) :
  DisableColors f = true → isColored f w = false.
Proof. intros H. unfold isColored. rewrite H. apply andb_false_r. Qed.

(** The line ends with the space of its last field and a line feed. *)
Lemma plainLine_end (f : TextFormatter) (e : Entry) (keys : list string) :
  ∃ body, plainLine f e keys = body +:+ " " +:+ String NL "".
Proof.
  unfold plainLine.
  set (t := if DisableTimestamp f then _ else _).
  set (m := if Message e =? "" then _ else _).
  set (lv := pairText "level" _).
  destruct (decide (keys = [])) as [-> | Hne].
  - destruct (Message e =? "") eqn:Hm; subst m.
    + exists (t +:+ "level=" +:+ valueText (VString (Level_String (Level e)))).
      subst lv. unfold pairText. cbn [map concat_strings].
      by rewrite !sapp_assoc, ?sapp_nil_l.
    + exists (t +:+ lv +:+ "msg=" +:+ valueText (VString (Message e))).
      unfold pairText. cbn [map concat_strings].
      by rewrite !sapp_assoc, ?sapp_nil_l.
  - destruct (exists_last Hne) as (ks & k & ->).
    exists (t +:+ lv +:+ m
            +:+ concat_strings
                  (map (λ k, pairText k (index (prefixFieldClashes (Data e)) k)) ks)
            +:+ k +:+ "="
            +:+ valueText (index (prefixFieldClashes (Data e)) k)).
    rewrite map_app, concat_strings_app. cbn [map concat_strings].
    unfold pairText. by rewrite !sapp_assoc, ?sapp_nil_r.
Qed.

End Plain.

(** ** The colored line *)

Lemma fmt_pad_left_rightAligned (w : nat) (s : string) :
  fmt_pad_left w s = rightAligned w s.
Proof.
  unfold fmt_pad_left, rightAligned.
  destruct (Nat.ltb_spec (String.length s) w) as [Hlt | Hge]; [done |].
  by replace (w - String.length s)%nat with 0%nat by lia.
Qed.

Lemma levelText_severityLabel (level : logrus_Level) :
  levelText level = severityLabel level.
Proof. unfold levelText, severityLabel. by destruct (level =? WarnLevel)%N. Qed.

Lemma length_rightAligned (w : nat) (s : string) :
  String.length (rightAligned w s) = (w `max` String.length s)%nat.
Proof.
  unfold rightAligned.
  destruct (Nat.ltb_spec (String.length s) w) as [Hlt | Hge].
  - rewrite length_sapp, length_spaces. lia.
  - lia.
Qed.

Lemma lines_nonempty (s : string) : lines s ≠ [].
Proof.
  induction s as [|c s IH]; cbn; [done |].
  case_bool_decide; [done |]. by destruct (lines s).
Qed.

(** Replacing each line feed by a line feed and [n] spaces moves every line
    after the first right by [n]. *)
Lemma strings_Replace_indented (n : nat) (s : string) :
  strings_Replace s NL (String NL (spaces n)) = indented n (lines s).
Proof.
  induction s as [|c s IH]; cbn [strings_Replace lines]; [done |].
  pose proof (lines_nonempty s) as Hne.
  destruct (lines s) as [|l ls]; [done |].
  case_bool_decide.
  - rewrite IH. cbn [indented map concat_strings].
    by rewrite sapp_nil_l, !sapp_cons, sapp_assoc.
  - rewrite IH. cbn [indented]. by rewrite sapp_cons.
Qed.

Lemma len_empty_iff (s : string) : (0 <? len s)%Z = negb (bool_decide (s = "")).
Proof. destruct s; [done |]. unfold len. cbn. by case_bool_decide. Qed.

Lemma eqb_empty (s : string) : (s =? "") = bool_decide (s = "").
Proof. destruct s; [done |]. cbn. by case_bool_decide. Qed.

Section Colored.
Context `{lib : GoLib}.

Lemma prefixAndMessage_spec (e : Entry) :
  prefixAndMessage e = (coloredTag (tagOf e), displayedMessage e).
Proof.
  unfold prefixAndMessage, displayedMessage, tagOf, prefixTag, reset.
  destruct (Data e !! "prefix") as [pfx|]; [done |].
  destruct (extractPrefix (Message e)) as [t trimmed]. cbn [fst snd].
  rewrite len_empty_iff. by case_bool_decide.
Qed.

Lemma coloredTag_empty (tag : option string) :
  (coloredTag tag =? "") = bool_decide (tag = None).
Proof. by destruct tag. Qed.

Lemma header_coloredHeader (f : TextFormatter) (w : World) (e : Entry) :
  header f w e
    (if TimestampFormat f =? "" then time_Stamp else TimestampFormat f)
    (fst (levelStyle w (Level e))) (snd (levelStyle w (Level e)))
    (coloredTag (tagOf e))
  = coloredHeader f w e.
Proof.
  unfold header, coloredHeader, stampBlock, stampOf, reset.
  rewrite fmt_pad_left_rightAligned, levelText_severityLabel.
  destruct (DisableTimestamp f), (ShortTimestamp f);
    by rewrite ?sapp_assoc, ?sapp_nil_l.
Qed.

(** The number that [printColored] keeps of [padlen]: the length of the header
    without its colour sequences. *)
Lemma padlen_visible (f : TextFormatter) (w : World) (e : Entry) :
  (len (coloredHeader f w e) - len (controlBytes w e))%Z
  = Z.of_nat (visibleWidth f w e).
Proof.
  unfold visibleWidth, coloredHeader, controlBytes, visibleHeader, coloredTag.
  destruct (tagOf e); rewrite ?len_app; unfold len;
    rewrite ?length_sapp; cbn [String.length]; lia.
Qed.

Lemma strings_Repeat_space_nat (n : nat) :
  strings_Repeat_space (Z.of_nat n) = Some (spaces n).
Proof.
  unfold strings_Repeat_space.
  destruct (Z.ltb_spec (Z.of_nat n) 0); [lia |]. by rewrite Nat2Z.id.
Qed.

Lemma printColored_spec (f : TextFormatter) (w : World) (wr : Buffer)
    (e : Entry) (keys : list string) :
  printColored f w wr e keys
    (if TimestampFormat f =? "" then time_Stamp else TimestampFormat f)
  = Some (wr +:+ coloredHeader f w e +:+ messageFormat f (coloredBody f w e)
          +:+ coloredFields (fst (levelStyle w (Level e))) e keys).
Proof.
  unfold printColored.
  pose proof (header_coloredHeader f w e) as Hh.
  pose proof (padlen_visible f w e) as Hp.
  unfold controlBytes in Hp.
  destruct (levelStyle w (Level e)) as [lc dbg].
  cbn [fst snd] in *.
  rewrite prefixAndMessage_spec, Hh.
  unfold printField. rewrite coloredTag_empty. unfold coloredBody.
  destruct (IndentMultilineMessage f
            && strings_ContainsRune (displayedMessage e) NL).
  - replace (if negb (bool_decide (tagOf e = None)) then _ else _)
      with (Z.of_nat (visibleWidth f w e)).
    + rewrite strings_Repeat_space_nat, strings_Replace_indented.
      rewrite foldl_write. unfold coloredFields.
      by rewrite !sapp_assoc.
    + rewrite <- Hp. unfold reset.
      destruct (tagOf e); cbn [negb bool_decide decide_rel];
        case_bool_decide; try done; rewrite ?len_app; cbn [negb];
        unfold len; cbn [String.length]; lia.
  - rewrite foldl_write. unfold coloredFields. by rewrite !sapp_assoc.
Qed.

Lemma Format_plain (f : TextFormatter) (w : World) (range : list string)
    (e : Entry) :
  isColored f w = false →
  snd (Format f w range e) = Some (plainLine f e (fieldKeys f range), None).
Proof. apply formatKeys_plain. Qed.

Lemma tagOf_renamed (e : Entry) :
  tagOf {| Data := prefixFieldClashes (Data e); Time := Time e;
           Level := Level e; Message := Message e |} = tagOf e.
Proof. unfold tagOf. cbn. by rewrite prefixFieldClashes_prefix. Qed.

Lemma displayedMessage_renamed (e : Entry) :
  displayedMessage {| Data := prefixFieldClashes (Data e); Time := Time e;
                      Level := Level e; Message := Message e |}
  = displayedMessage e.
Proof.
  unfold displayedMessage. rewrite tagOf_renamed. cbn.
  by rewrite prefixFieldClashes_prefix.
Qed.

Lemma Format_colored (f : TextFormatter) (w : World) (range : list string)
    (e : Entry) :
  isColored f w = true →
  snd (Format f w range e) = Some (coloredLine f w e (fieldKeys f range), None).
Proof.
  intros Hc. unfold Format, formatKeys. rewrite Hc. cbn [snd].
  rewrite printColored_spec. do 2 f_equal.
  unfold WriteByte, coloredLine, coloredHeader, coloredBody, visibleWidth,
    visibleHeader, stampBlock, stampOf.
  rewrite tagOf_renamed, displayedMessage_renamed. cbn [Time Level Message].
  by rewrite !sapp_assoc, ?sapp_nil_l.
Qed.

End Colored.

(** ** The bracketed tag *)

Lemma regex_tag_Some (s t : string) :
  regex_tag s = Some t → ∃ rest, s = t +:+ "]" +:+ rest ∧ in_tag t = true.
Proof.
  revert t. induction s as [|c s IH]; intros t; cbn [regex_tag]; [done |].
  case_bool_decide as Hb; [| case_bool_decide as Hn; [done |]].
  - intros [= <-]. exists s. by subst c.
  - destruct (regex_tag s) as [t'|]; [| done]. intros [= <-].
    destruct (IH t' eq_refl) as (rest & -> & Ht).
    exists rest. split; [done |]. cbn [in_tag forall_bytes].
    rewrite !bool_decide_eq_false_2 by done. exact Ht.
Qed.

Lemma regex_tag_intro (t rest : string) :
  in_tag t = true → regex_tag (t +:+ "]" +:+ rest) = Some t.
Proof.
  induction t as [|c t IH]; [done |].
  cbn [in_tag forall_bytes]. rewrite !andb_true_iff, !negb_true_iff.
  intros [[Hb Hn] Ht]. rewrite sapp_cons. cbn [regex_tag].
  rewrite Hb, Hn. fold (in_tag t) in Ht. by rewrite (IH Ht).
Qed.

Lemma substring_app (t r : string) : substring 0 (String.length t) (t +:+ r) = t.
Proof.
  induction t as [|c t IH]; [by destruct r |].
  rewrite sapp_cons. cbn. by rewrite IH.
Qed.

Lemma drop_bytes_app (m r : string) : drop_bytes (String.length m) (m +:+ r) = r.
Proof. induction m as [|c m IH]; [done |]. rewrite sapp_cons. by cbn. Qed.

Lemma extractPrefix_tag (t rest : string) :
  in_tag t = true →
  extractPrefix ("[" +:+ t +:+ "]" +:+ rest) = (t, strings_TrimSpace rest).
Proof.
  intros Ht. unfold extractPrefix.
  change ("[" +:+ t +:+ "]" +:+ rest) with (String "[" (t +:+ "]" +:+ rest)).
  cbn [regex_FindString]. rewrite (regex_tag_intro _ _ Ht).
  change ("[" +:+ t +:+ "]") with (String "[" (t +:+ "]")).
  cbn [String.length]. rewrite length_sapp. cbn [String.length].
  replace (S (String.length t + 1) - 2)%nat with (String.length t) by lia.
  f_equal.
  - cbn [substring]. apply substring_app.
  - cbn [drop_bytes].
    replace (String.length t + 1)%nat with (String.length (t +:+ "]"))
      by (rewrite length_sapp; done).
    rewrite <- sapp_assoc. by rewrite drop_bytes_app.
Qed.

Lemma extractPrefix_match (msg : string) :
  extractPrefix msg = ("", msg)
  ∨ ∃ t rest, msg = "[" +:+ t +:+ "]" +:+ rest ∧ in_tag t = true.
Proof.
  unfold extractPrefix.
  destruct msg as [|c s]; [by left |]. cbn [regex_FindString].
  destruct (decide (c = "["%char)) as [-> | Hc].
  - destruct (regex_tag s) as [t|] eqn:Hs; [| by left].
    right. destruct (regex_tag_Some _ _ Hs) as (rest & -> & Ht). eauto.
  - left. destruct c as [[] [] [] [] [] [] [] []]; done.
Qed.

(** ** The claims: the non-colored line *)

Section PlainClaims.
Context `{lib : GoLib}.

(** C3 (amended).  With colors disabled the output is the non-colored
    template: [time=<value> ] unless the timestamp is disabled, [level=<value> ],
    [msg=<value> ] unless the message is empty, then [key=<value> ] for each
    field key of the call, in their order; it ends with a space and a line
    feed.  When sorting is not disabled the output is the same for every order
    in which the range loop may yield the keys, and for every state of the
    process. *)
Theorem plain_template (f : TextFormatter) (w : World) (range : list string)
    (e : Entry) :
  DisableColors f = true →
  is_range (Data e) range = true →
  snd (Format f w range e) = Some (plainLine f e (fieldKeys f range), None)
  ∧ (∃ body, plainLine f e (fieldKeys f range) = body +:+ " " +:+ String NL "")
  ∧ (DisableSorting f = false →
     ∀ w' range', is_range (Data e) range' = true →
       snd (Format f w' range' e) = snd (Format f w range e)).
Proof.
  intros Hd Hr. split; [| split].
  - by apply Format_plain, DisableColors_isColored.
  - apply plainLine_end.
  - intros Hs w' range' Hr'.
    rewrite !Format_plain by by apply DisableColors_isColored.
    rewrite (fieldKeys_sorted_unique f range' range); [done .. |].
    by rewrite (is_range_Permutation _ _ Hr), (is_range_Permutation _ _ Hr').
Qed.

(** C4 (amended).  The rendered field keys are the keys that the range loop
    yields, without ["prefix"].  When sorting is not disabled they come in
    increasing byte-wise order, whatever the order of the loop; when it is
    disabled they come in the order of the loop. *)
Theorem field_order (f : TextFormatter) (w : World) (range : list string)
    (e : Entry) :
  is_range (Data e) range = true →
  snd (Format f w range e)
  = Some (if isColored f w then coloredLine f w e (fieldKeys f range)
          else plainLine f e (fieldKeys f range), None)
  ∧ fieldKeys f range ≡ₚ filter (λ k, k ≠ "prefix") range
  ∧ (DisableSorting f = false →
     Sorted String.le (fieldKeys f range) ∧ NoDup (fieldKeys f range)
     ∧ ∀ range', is_range (Data e) range' = true →
         fieldKeys f range' = fieldKeys f range)
  ∧ (DisableSorting f = true →
     fieldKeys f range = filter (λ k, k ≠ "prefix") range).
Proof.
  intros Hr. split; [| split; [| split]].
  - destruct (isColored f w) eqn:Hc;
      [by apply Format_colored | by apply Format_plain].
  - apply fieldKeys_Permutation.
  - intros Hs. split; [by apply fieldKeys_Sorted | split].
    + rewrite fieldKeys_Permutation.
      apply NoDup_filter. by eapply is_range_NoDup.
    + intros range' Hr'. apply fieldKeys_sorted_unique; [done |].
      by rewrite (is_range_Permutation _ _ Hr), (is_range_Permutation _ _ Hr').
  - apply fieldKeys_unsorted.
Qed.

(** What [appendKeyValue] writes.  A string value, and the message of an error
    value, is written as it is exactly when each of its characters is an ASCII
    letter, an ASCII digit, [-] or [.]; otherwise it is written by [%q], as a
    quoted string.  Any other value is written by the default conversion. *)
Theorem value_quoting (b : Buffer) (key : string) (v : Value) :
  appendKeyValue b key v
  = b +:+ key +:+ "="
    +:+ match v with
        | VString s | VError s => if unquoted s then s else strconv_Quote s
        | _ => fmt_v false v
        end
    +:+ " ".
Proof. rewrite appendKeyValue_pairText. by destruct v. Qed.

(** C10.  In non-colored mode the ["prefix"] field is not rendered: it is not
    among the keys of the line, and the output is that of the entry without
    this field.  The message is the value of [msg] as it is, a leading
    bracketed tag included. *)
Theorem plain_drops_prefix (f : TextFormatter) (w : World)
    (range : list string) (e : Entry) :
  isColored f w = false →
  snd (Format f w range e) = Some (plainLine f e (fieldKeys f range), None)
  ∧ ("prefix" ∉ fieldKeys f range)
  ∧ (snd (Format f w (filter (λ k, k ≠ "prefix") range)
            {| Data := delete "prefix" (Data e); Time := Time e;
               Level := Level e; Message := Message e |})
     = snd (Format f w range e)).
Proof.
  intros Hc. split; [by apply Format_plain | split].
  - apply fieldKeys_no_prefix.
  - rewrite !Format_plain by done. rewrite fieldKeys_filter.
    do 2 f_equal. unfold plainLine, stampOf. cbn [Data Time Level Message].
    rewrite (concat_strings_ext
               (λ k, pairText k (index (prefixFieldClashes
                                          (delete "prefix" (Data e))) k))
               (λ k, pairText k (index (prefixFieldClashes (Data e)) k)));
      [done |].
    intros k Hk. unfold index. rewrite prefixFieldClashes_delete_prefix; [done |].
    intros ->. by apply (fieldKeys_no_prefix f range).
Qed.

End PlainClaims.

(** ** The claims: the colored line, errors, repeated calls *)

Section ColoredClaims.
Context `{lib : GoLib}.

(** C6 (amended).  In colored mode the line carries the tag [tagOf] and the
    message [displayedMessage].  A ["prefix"] field gives the tag, and the
    message stays as it is, a bracketed tag in front of it included.  Without
    this field, a message that starts with [[t]], where [t] is not empty and
    holds no closing bracket and no line feed, gives the tag [t], and what
    follows the bracket is displayed with its leading and its trailing white
    space removed.  Without such a start there is no tag and the message stays
    as it is. *)
Theorem prefix_tag (f : TextFormatter) (w : World) (range : list string)
    (e : Entry) :
  isColored f w = true →
  snd (Format f w range e) = Some (coloredLine f w e (fieldKeys f range), None)
  ∧ (∀ pfx, Data e !! "prefix" = Some pfx →
       tagOf e = Some (fmt_v false pfx) ∧ displayedMessage e = Message e)
  ∧ (∀ t rest,
       Data e !! "prefix" = None →
       Message e = "[" +:+ t +:+ "]" +:+ rest → in_tag t = true → t ≠ "" →
       tagOf e = Some t ∧ displayedMessage e = strings_TrimSpace rest)
  ∧ (Data e !! "prefix" = None →
     (∀ t rest, Message e = "[" +:+ t +:+ "]" +:+ rest → in_tag t = true →
                t = "") →
     tagOf e = None ∧ displayedMessage e = Message e).
Proof.
  intros Hc. split; [by apply Format_colored | split; [| split]].
  - intros pfx Hp. unfold displayedMessage, tagOf. by rewrite Hp.
  - intros t rest Hp Hm Ht Hne. unfold displayedMessage, tagOf.
    rewrite Hp, Hm, extractPrefix_tag by done. cbn [fst snd].
    by rewrite bool_decide_eq_false_2.
  - intros Hp Hall. unfold displayedMessage, tagOf. rewrite Hp.
    destruct (extractPrefix_match (Message e)) as [-> | (t & rest & Hm & Ht)];
      [done |].
    rewrite (Hall t rest Hm Ht) in Hm. rewrite Hm.
    rewrite (extractPrefix_tag "" rest) by done. done.
Qed.


(** C8.  In colored mode the header holds, between the colour of the level
    and the reset sequence, the label of the level right-aligned in five
    characters; the label of the Warn level is [WARN], that of any other level
    its name in upper case. *)
Theorem level_label (f : TextFormatter) (w : World) (range : list string)
    (e : Entry) :
  isColored f w = true →
  (∃ rest,
     snd (Format f w range e)
     = Some (ansi_LightBlack +:+ stampBlock f w e +:+ ansi_Reset +:+ " "
             +:+ fst (levelStyle w (Level e))
             +:+ rightAligned 5 (severityLabel (Level e)) +:+ ansi_Reset
             +:+ rest, None))
  ∧ severityLabel (Level e)
    = (if bool_decide (Level e = WarnLevel) then "WARN"
       else strings_ToUpper (Level_String (Level e)))
  ∧ String.length (rightAligned 5 (severityLabel (Level e)))
    = (5 `max` String.length (severityLabel (Level e)))%nat
  ∧ (∃ n, rightAligned 5 (severityLabel (Level e))
          = spaces n +:+ severityLabel (Level e))
  ∧ map severityLabel
      [PanicLevel; FatalLevel; ErrorLevel; WarnLevel; InfoLevel; DebugLevel]
    = ["PANIC"; "FATAL"; "ERROR"; "WARN"; "INFO"; "DEBUG"].
Proof.
  intros Hc. split; [| split; [| split; [| split]]].
  - rewrite Format_colored by done. unfold coloredLine, coloredHeader.
    eexists. by rewrite !sapp_assoc.
  - unfold severityLabel. case_bool_decide as H.
    + by rewrite H.
    + by apply N.eqb_neq in H as ->.
  - apply length_rightAligned.
  - unfold rightAligned. destruct (_ <? _)%nat; [by eexists |]. by exists 0%nat.
  - reflexivity.
Qed.

(** C9.  [Format] returns, and its error is nil. *)
Theorem Format_no_error (f : TextFormatter) (w : World) (range : list string)
    (e : Entry) :
  ∃ bytes, snd (Format f w range e) = Some (bytes, None).
Proof.
  destruct (isColored f w) eqn:Hc.
  - eexists. by apply Format_colored.
  - eexists. by apply Format_plain.
Qed.

Lemma Format_entry (f : TextFormatter) (w : World) (range : list string)
    (e : Entry) :
  fst (Format f w range e)
  = {| Data := prefixFieldClashes (Data e); Time := Time e;
       Level := Level e; Message := Message e |}.
Proof. reflexivity. Qed.

Lemma Format_keys (f : TextFormatter) (w : World) (r1 r2 : list string)
    (e : Entry) :
  fieldKeys f r1 = fieldKeys f r2 →
  snd (Format f w r1 e) = snd (Format f w r2 e).
Proof. unfold Format. by intros ->. Qed.

(** C2 (amended).  With sorting not disabled and the state of the process
    unchanged, a call on an entry that a call has already formatted returns
    the same bytes as the call before it and leaves the entry as it is: the
    renaming of one call is not renamed again.  Outside the three keys
    [fields.time], [fields.msg] and [fields.level] the field mapping is the
    caller's. *)
Theorem later_calls_agree (f : TextFormatter) (w : World)
    (r1 r2 r3 : list string) (e : Entry) :
  DisableSorting f = false →
  is_range (Data (fst (Format f w r1 e))) r2 = true →
  is_range (Data (fst (Format f w r2 (fst (Format f w r1 e))))) r3 = true →
  snd (Format f w r3 (fst (Format f w r2 (fst (Format f w r1 e)))))
  = snd (Format f w r2 (fst (Format f w r1 e)))
  ∧ fst (Format f w r2 (fst (Format f w r1 e))) = fst (Format f w r1 e)
  ∧ ∀ k, k ∉ ["fields.time"; "fields.msg"; "fields.level"] →
         Data (fst (Format f w r1 e)) !! k = Data e !! k.
Proof.
  intros Hs. rewrite !Format_entry. cbn [Data Time Level Message].
  rewrite !prefixFieldClashes_idemp. intros H2 H3. split; [| split].
  - apply Format_keys, fieldKeys_sorted_unique; [done |].
    by rewrite (is_range_Permutation _ _ H2), (is_range_Permutation _ _ H3).
  - done.
  - intros k Hk. rewrite prefixFieldClashes_lookup.
    repeat case_decide; subst; try done; exfalso; apply Hk; set_solver.
Qed.

End ColoredClaims.

(** ** Runs of the formatter *)

(** C1 (the failing input).  The entry has a field ["level"]; sorting on,
    colors and timestamp off.  The call copies the field to ["fields.level"]
    in the mapping, but its key list was taken before: the line carries the
    caller's value under the key [level] and no [fields.level]. *)
Theorem clash_copy_not_rendered :
  is_range (Data clashEntry) ["level"] = true
  ∧ snd (Format (plainFormatter false) someWorld ["level"] clashEntry)
    = Some ("level=info msg=hi level=x " +:+ String NL "", None)
  ∧ Data (fst (Format (plainFormatter false) someWorld ["level"] clashEntry))
      !! "fields.level" = Some (VString "x").
Proof. vm_compute. done. Qed.

(** The key that the renaming of a call adds is not among the keys that the
    call renders. *)
Lemma renamed_key_not_listed `{lib : GoLib} (f : TextFormatter)
    (range : list string) (e : Entry) (k : string) :
  is_range (Data e) range = true → Data e !! k = None → k ∉ fieldKeys f range.
Proof.
  intros Hr Hk. rewrite fieldKeys_Permutation, list_elem_of_filter.
  intros [_ Hin]. rewrite (is_range_Permutation _ _ Hr) in Hin.
  apply elem_of_elements, elem_of_dom in Hin. rewrite Hk in Hin.
  by destruct Hin.
Qed.

(** C2 (counterexample).  Sorting disabled, two fields and no clashing key:
    the range loop of the second call may yield the keys in another order, and
    the second output is not the first. *)
Lemma second_call_order :
  is_range (Data abEntry) ["a"; "b"] = true
  ∧ is_range
      (Data (fst (Format (plainFormatter true) someWorld ["a"; "b"] abEntry)))
      ["b"; "a"] = true
  ∧ snd (Format (plainFormatter true) someWorld ["b"; "a"]
           (fst (Format (plainFormatter true) someWorld ["a"; "b"] abEntry)))
    ≠ snd (Format (plainFormatter true) someWorld ["a"; "b"] abEntry).
Proof. vm_compute. repeat split; discriminate. Qed.

Lemma later_calls_agree_witness :
  snd (Format (plainFormatter false) someWorld ["fields.level"; "level"]
         (fst (Format (plainFormatter false) someWorld ["level"; "fields.level"]
                 (fst (Format (plainFormatter false) someWorld ["level"]
                         clashEntry)))))
  = snd (Format (plainFormatter false) someWorld ["level"; "fields.level"]
           (fst (Format (plainFormatter false) someWorld ["level"] clashEntry))).
Proof.
  refine (proj1 (later_calls_agree (lib := ttyLib) (plainFormatter false)
                   someWorld ["level"] ["level"; "fields.level"]
                   ["fields.level"; "level"] clashEntry _ _ _));
    vm_compute; reflexivity.
Defined.

(** C3 (counterexample).  Colors and sorting disabled, two fields: the output
    follows the order of the range loop, which the input does not fix. *)
Lemma plain_order_dependent :
  DisableColors (plainFormatter true) = true
  ∧ is_range (Data abEntry) ["a"; "b"] = true
  ∧ is_range (Data abEntry) ["b"; "a"] = true
  ∧ snd (Format (plainFormatter true) someWorld ["a"; "b"] abEntry)
    ≠ snd (Format (plainFormatter true) someWorld ["b"; "a"] abEntry).
Proof. vm_compute. repeat split; discriminate. Qed.

Lemma plain_template_witness :
  snd (Format (plainFormatter false) someWorld ["b"; "a"] abEntry)
  = Some (plainLine (plainFormatter false) abEntry
            (fieldKeys (plainFormatter false) ["b"; "a"]), None).
Proof.
  refine (proj1 (plain_template (lib := ttyLib) (plainFormatter false)
                   someWorld ["b"; "a"] abEntry _ _));
    vm_compute; reflexivity.
Defined.

(** C4 (counterexample).  The mapping was filled with [b] first and [a] next;
    sorting is disabled; the range loop yields [a] first, and so does the
    line. *)
Lemma insertion_order_not_kept :
  Data abEntry = assign [("b", VInt 1); ("a", VInt 2)]
  ∧ is_range (Data abEntry) ["a"; "b"] = true
  ∧ snd (Format (plainFormatter true) someWorld ["a"; "b"] abEntry)
    = Some ("level=info a=2 b=1 " +:+ String NL "", None)
  ∧ snd (Format (plainFormatter true) someWorld ["a"; "b"] abEntry)
    ≠ Some (plainLine (plainFormatter true) abEntry ["b"; "a"], None).
Proof.
  split; [reflexivity |]. vm_compute. repeat split; discriminate.
Qed.

Lemma field_order_witness :
  Sorted String.le (fieldKeys (plainFormatter false) ["b"; "a"]).
Proof.
  refine (proj1 (proj1 (proj2 (proj2
            (field_order (lib := ttyLib) (plainFormatter false) someWorld
               ["b"; "a"] abEntry _))) _));
    vm_compute; reflexivity.
Defined.

(** The fields [{b: 1, a: 2}] with sorting render as [a=2 b=1]. *)
Example sorted_example :
  snd (Format (plainFormatter false) someWorld ["b"; "a"] abEntry)
  = Some ("level=info a=2 b=1 " +:+ String NL "", None).
Proof. vm_compute. reflexivity. Qed.

(** [hello-world.txt] is written as it is, [hello world] between quotes. *)
Example quoting_examples :
  appendKeyValue (lib := ttyLib) "" "file" (VString "hello-world.txt")
  = "file=hello-world.txt "
  ∧ appendKeyValue (lib := ttyLib) "" "text" (VString "hello world")
    = "text=" +:+ DQ +:+ "hello world" +:+ DQ +:+ " ".
Proof. vm_compute. done. Qed.

(** C6 (counterexample).  No ["prefix"] field, and a message that ends with a
    space: what is displayed is [started job], without the space that the
    text after the bracket and its leading white space still has. *)
Lemma trailing_space_stripped :
  Data trailingEntry !! "prefix" = None
  ∧ Message trailingEntry = "[worker]" +:+ " started job "
  ∧ trim_left_space " started job " = "started job "
  ∧ displayedMessage trailingEntry = "started job"
  ∧ snd (Format colorFormatter someWorld [] trailingEntry)
    = Some (coloredHeader colorFormatter someWorld trailingEntry
            +:+ "started job" +:+ String NL "", None)
  ∧ snd (Format colorFormatter someWorld [] trailingEntry)
    ≠ Some (coloredHeader colorFormatter someWorld trailingEntry
            +:+ trim_left_space " started job " +:+ String NL "", None).
Proof. vm_compute. repeat split; discriminate. Qed.

Lemma prefix_tag_witness :
  tagOf workerEntry = Some "worker"
  ∧ displayedMessage workerEntry = strings_TrimSpace " started job".
Proof.
  refine (proj1 (proj2 (proj2
            (prefix_tag (lib := ttyLib) colorFormatter someWorld [] workerEntry
               _))) "worker" " started job" _ _ _ _);
    vm_compute; (reflexivity || discriminate).
Defined.

(** The message [[worker] started job] without a ["prefix"] field gives the
    tag [worker] and the message [started job]; with the field ["prefix"] set
    to [db] the tag is [db] and the message keeps its bracket. *)
Example prefix_examples :
  tagOf workerEntry = Some "worker"
  ∧ displayedMessage workerEntry = "started job"
  ∧ tagOf prefixedEntry = Some "db"
  ∧ displayedMessage prefixedEntry = "[worker] started job"
  ∧ snd (Format colorFormatter someWorld [] workerEntry)
    = Some (ESC +:+ "[90m[0003]" +:+ ESC +:+ "[0m " +:+ ESC +:+ "[32m INFO"
            +:+ ESC +:+ "[0m " +:+ ESC +:+ "[36mworker:" +:+ ESC
            +:+ "[0m started job" +:+ String NL "", None).
Proof. vm_compute. done. Qed.


(** A message of two lines under the header [[0003]  WARN worker: ], which is
    21 characters wide: the second line starts after 21 spaces. *)
Example multiline_example :
  visibleHeader colorFormatter someWorld twoLineEntry "" (tagOf twoLineEntry)
  = "[0003]  WARN worker: "
  ∧ snd (Format colorFormatter someWorld [] twoLineEntry)
    = Some (ESC +:+ "[90m[0003]" +:+ ESC +:+ "[0m " +:+ ESC +:+ "[33m WARN"
            +:+ ESC +:+ "[0m " +:+ ESC +:+ "[36mworker:" +:+ ESC
            +:+ "[0m started" +:+ String NL (spaces 21) +:+ "job"
            +:+ String NL "", None).
Proof. vm_compute. done. Qed.

Lemma level_label_witness :
  severityLabel (Level twoLineEntry)
  = (if bool_decide (Level twoLineEntry = WarnLevel) then "WARN"
     else strings_ToUpper (Level_String (Level twoLineEntry))).
Proof.
  refine (proj1 (proj2 (level_label (lib := ttyLib) colorFormatter someWorld []
                          twoLineEntry _)));
    vm_compute; reflexivity.
Defined.

Lemma plain_drops_prefix_witness :
  snd (Format (plainFormatter false) someWorld
         (filter (λ k, k ≠ "prefix") ["prefix"])
         {| Data := delete "prefix" (Data prefixedEntry);
            Time := Time prefixedEntry; Level := Level prefixedEntry;
            Message := Message prefixedEntry |})
  = snd (Format (plainFormatter false) someWorld ["prefix"] prefixedEntry).
Proof.
  refine (proj2 (proj2 (plain_drops_prefix (lib := ttyLib)
                          (plainFormatter false) someWorld ["prefix"]
                          prefixedEntry _)));
    vm_compute; reflexivity.
Defined.

(** An empty pair of brackets gives no tag, and the message keeps it. *)
Example empty_tag_example :
  tagOf (mkEntry ∅ InfoLevel "[] hello") = None
  ∧ displayedMessage (mkEntry ∅ InfoLevel "[] hello") = "[] hello".
Proof. vm_compute. done. Qed.

(** In non-colored mode the field ["prefix"] leaves no trace and the message
    keeps its bracket. *)
Example plain_prefix_example :
  snd (Format (plainFormatter false) someWorld ["prefix"] prefixedEntry)
  = Some ("level=info msg=" +:+ DQ +:+ "[worker] started job" +:+ DQ +:+ " "
          +:+ String NL "", None).
Proof. vm_compute. reflexivity. Qed.

Lemma clash_overwrites_copy_keys (data : gmap string Value) (name : string)
    (v : Value) :
  name ∈ ["time"; "msg"; "level"] →
  data !! name = Some v →
  prefixFieldClashes data !! ("fields." +:+ name) = Some v
  ∧ "fields." +:+ name ≠ "prefix".
Proof.
  intros Hn Hv. rewrite !prefixFieldClashes_lookup.
  apply elem_of_cons in Hn as [-> | Hn];
    [| apply elem_of_cons in Hn as [-> | Hn];
       [| apply list_elem_of_singleton in Hn as ->]];
    cbv [String.append]; repeat case_decide; try done; by rewrite Hv.
Qed.

(** ** Further properties of the renaming *)

(** X1.  The keys of the mapping after [prefixFieldClashes]: every key it had,
    and [fields.<name>] for each of [time], [msg] and [level] that it had.  No
    key is removed: the clashing field is copied, not moved. *)
Theorem prefixFieldClashes_keys (data : gmap string Value) (k : string) :
  is_Some (prefixFieldClashes data !! k)
  ↔ is_Some (data !! k)
    ∨ (k = "fields.time" ∧ is_Some (data !! "time"))
    ∨ (k = "fields.msg" ∧ is_Some (data !! "msg"))
    ∨ (k = "fields.level" ∧ is_Some (data !! "level")).
Proof.
  rewrite prefixFieldClashes_lookup.
  repeat case_decide; simplify_eq;
    repeat match goal with
      | |- context [data !! ?k] => destruct (data !! k)
      end;
    (split; [eauto 6 |]);
    intros Hk; destruct_or?; destruct_and?; simplify_eq;
    try done; try (by eapply is_Some_None); eauto.
Qed.

(** X2.  A value that the caller stored under [fields.time], [fields.msg] or
    [fields.level] is overwritten by the value of the clashing field, which
    itself stays where it was. *)
Theorem clash_overwrites_copy (data : gmap string Value) (name : string)
    (v : Value) :
  name ∈ ["time"; "msg"; "level"] →
  data !! name = Some v →
  prefixFieldClashes data !! ("fields." +:+ name) = Some v
  ∧ prefixFieldClashes data !! name = Some v.
Proof.
  intros Hn Hv. rewrite !prefixFieldClashes_lookup.
  apply elem_of_cons in Hn as [-> | Hn];
    [| apply elem_of_cons in Hn as [-> | Hn];
       [| apply list_elem_of_singleton in Hn as ->]];
    cbv [String.append]; repeat case_decide; try done; by rewrite Hv.
Qed.

Lemma clash_overwrites_copy_witness :
  prefixFieldClashes
    (<["fields.time" := VString "mine"]> {["time" := VString "noon"]})
    !! ("fields." +:+ "time") = Some (VString "noon")
  ∧ prefixFieldClashes
      (<["fields.time" := VString "mine"]> {["time" := VString "noon"]})
      !! "time" = Some (VString "noon").
Proof.
  apply (clash_overwrites_copy
           (<["fields.time" := VString "mine"]> {["time" := VString "noon"]})
           "time" (VString "noon")).
  - by left.
  - vm_compute. reflexivity.
Defined.

(** X3.  A call on an entry without the fields [time], [msg] and [level]
    leaves the entry as it is. *)
Theorem no_clash_entry_unchanged `{lib : GoLib} (f : TextFormatter) (w : World)
    (range : list string) (e : Entry) :
  Data e !! "time" = None → Data e !! "msg" = None →
  Data e !! "level" = None →
  fst (Format f w range e) = e.
Proof.
  intros Ht Hm Hl. destruct e as [data t l m]. cbn in *.
  unfold prefixFieldClashes. by rewrite Ht, Hm, Hl.
Qed.

Lemma no_clash_entry_unchanged_witness :
  fst (Format (plainFormatter false) someWorld ["b"; "a"] abEntry) = abEntry.
Proof.
  apply (no_clash_entry_unchanged (lib := ttyLib)); vm_compute; reflexivity.
Defined.

(** ** Further properties of the quoting test *)

(** X4.  A text that [needsQuoting] lets through unquoted holds only ASCII
    bytes, and among them no white space, no double quote, no equals sign and
    no backslash: it cannot break the [key=value ] form of the line. *)
Theorem unquoted_text_safe (text : string) :
  needsQuoting text = true →
  forall_bytes
    (λ c, (code c <? 128)%N && negb (space1 c)
          && negb (code c =? 34)%N && negb (code c =? 61)%N
          && negb (code c =? 92)%N)
    text = true.
Proof.
  induction text as [|c text IH]; [done |]. cbn [needsQuoting forall_bytes].
  destruct (plain c) eqn:Hc; [| done]. cbn [negb]. intros Ht.
  rewrite (IH Ht), andb_true_r. clear -Hc.
  by destruct c as [[] [] [] [] [] [] [] []].
Qed.

Lemma unquoted_text_safe_witness :
  forall_bytes
    (λ c, (code c <? 128)%N && negb (space1 c)
          && negb (code c =? 34)%N && negb (code c =? 61)%N
          && negb (code c =? 92)%N)
    "hello-world.txt" = true.
Proof. apply (unquoted_text_safe "hello-world.txt"). reflexivity. Defined.

(** X5.  A text made of two parts is written unquoted exactly when each part
    would be. *)
Theorem needsQuoting_app (s1 s2 : string) :
  needsQuoting (s1 +:+ s2) = needsQuoting s1 && needsQuoting s2.
Proof.
  induction s1 as [|c s1 IH]; [done |].
  rewrite sapp_cons. cbn [needsQuoting]. by destruct (plain c).
Qed.

(** ** Further properties of the prefix extraction *)

(** X6.  A message built as [[t] m], with a tag [t] that holds neither a
    closing bracket nor a line feed and a text [m] without white space around
    it, is split back into [t] and [m]. *)
Theorem extractPrefix_roundtrip (t m : string) :
  in_tag t = true → strings_TrimSpace m = m →
  extractPrefix ("[" +:+ t +:+ "] " +:+ m) = (t, m).
Proof.
  intros Ht Hm.
  change ("[" +:+ t +:+ "] " +:+ m) with ("[" +:+ t +:+ "]" +:+ String " " m).
  rewrite extractPrefix_tag by done. f_equal. by rewrite <- Hm at 2.
Qed.

Lemma extractPrefix_roundtrip_witness :
  extractPrefix ("[" +:+ "worker" +:+ "] " +:+ "started job")
  = ("worker", "started job").
Proof. apply (extractPrefix_roundtrip "worker" "started job"); reflexivity. Defined.

(** X7.  The prefix that [extractPrefix] returns holds neither a closing
    bracket nor a line feed; when it is not empty the message starts with it
    between brackets, and the returned message is what follows the closing
    bracket, trimmed. *)
Theorem extractPrefix_sound (msg : string) :
  in_tag (fst (extractPrefix msg)) = true
  ∧ (fst (extractPrefix msg) ≠ "" →
     ∃ rest, msg = "[" +:+ fst (extractPrefix msg) +:+ "]" +:+ rest
             ∧ snd (extractPrefix msg) = strings_TrimSpace rest).
Proof.
  destruct (extractPrefix_match msg) as [-> | (t & rest & -> & Ht)].
  - done.
  - rewrite extractPrefix_tag by done. cbn [fst snd]. eauto.
Qed.

(** ** Further properties of the key list *)

Lemma fieldKeys_elem `{lib : GoLib} (f : TextFormatter)
    (data : gmap string Value) (range : list string) (k : string) :
  is_range data range = true →
  k ∈ fieldKeys f range ↔ k ≠ "prefix" ∧ is_Some (data !! k).
Proof.
  intros Hr. rewrite fieldKeys_Permutation, list_elem_of_filter.
  by rewrite (is_range_Permutation _ _ Hr), elem_of_elements, elem_of_dom.
Qed.

(** X8.  Whether sorting is disabled or not, a call renders each field of the
    mapping other than ["prefix"] once, and nothing else: the key list has no
    duplicate, holds exactly these keys, and has as many keys as the mapping
    without ["prefix"]. *)
Theorem each_field_once `{lib : GoLib} (f : TextFormatter)
    (range : list string) (e : Entry) :
  is_range (Data e) range = true →
  NoDup (fieldKeys f range)
  ∧ (∀ k, k ∈ fieldKeys f range ↔ k ≠ "prefix" ∧ is_Some (Data e !! k))
  ∧ length (fieldKeys f range) = size (delete "prefix" (Data e)).
Proof.
  intros Hr.
  assert (NoDup (fieldKeys f range)) as Hnd.
  { rewrite fieldKeys_Permutation. apply NoDup_filter.
    by eapply is_range_NoDup. }
  split; [done | split].
  - intros k. by apply fieldKeys_elem.
  - rewrite <- size_dom.
    transitivity (length (elements (dom (delete "prefix" (Data e)))));
      [| done].
    apply Permutation_length, NoDup_Permutation; [done | apply NoDup_elements |].
    intros k. rewrite (fieldKeys_elem f (Data e)) by done.
    rewrite elem_of_elements, elem_of_dom, lookup_delete.
    case_decide; subst; split; try tauto.
    + intros [? ?]. done.
    + intros Hk. by destruct Hk.
Qed.

Lemma each_field_once_witness :
  length (fieldKeys (plainFormatter true) ["prefix"; "a"])
  = size (delete "prefix"
            (Data (mkEntry (<["a" := VInt 1]> {["prefix" := VString "db"]})
                     InfoLevel "hi"))).
Proof.
  refine (proj2 (proj2 (each_field_once (lib := ttyLib) (plainFormatter true)
            ["prefix"; "a"]
            (mkEntry (<["a" := VInt 1]> {["prefix" := VString "db"]})
               InfoLevel "hi") _))).
  vm_compute. reflexivity.
Defined.

(** X9.  The copy that a call adds for a clashing field is rendered by the
    next call on the entry: its key is in the key list of that call. *)
Theorem next_call_renders_copy `{lib : GoLib} (f : TextFormatter) (w : World)
    (r1 r2 : list string) (e : Entry) (name : string) :
  name ∈ ["time"; "msg"; "level"] →
  is_Some (Data e !! name) →
  is_range (Data (fst (Format f w r1 e))) r2 = true →
  "fields." +:+ name ∈ fieldKeys f r2.
Proof.
  intros Hn [v Hv] Hr.
  apply (fieldKeys_elem f _ _ _ Hr). rewrite Format_entry. cbn [Data].
  destruct (clash_overwrites_copy_keys (Data e) name v Hn Hv) as [-> Hne].
  split; [done | eauto].
Qed.

Lemma next_call_renders_copy_witness :
  "fields." +:+ "level" ∈ fieldKeys (plainFormatter true) ["level"; "fields.level"].
Proof.
  refine (next_call_renders_copy (lib := ttyLib) (plainFormatter true)
            someWorld ["level"] ["level"; "fields.level"] clashEntry "level"
            _ _ _).
  - set_solver.
  - by eexists.
  - vm_compute. reflexivity.
Defined.

(** ** Which options and which state a line depends on *)

Section Options.
Context `{lib : GoLib}.

(** X10.  Without colors the call reads neither [ShortTimestamp], nor
    [IndentMultilineMessage], nor [SpacePadding], nor the state of the
    process: two formatters that agree on [DisableTimestamp], [DisableSorting]
    and [TimestampFormat] return the same, and leave the same entry. *)
Theorem plain_ignores_colored_options (f f' : TextFormatter) (w w' : World)
    (range : list string) (e : Entry) :
  isColored f w = false → isColored f' w' = false →
  DisableTimestamp f = DisableTimestamp f' →
  DisableSorting f = DisableSorting f' →
  TimestampFormat f = TimestampFormat f' →
  Format f w range e = Format f' w' range e.
Proof.
  intros Hc Hc' Ht Hs Hl.
  rewrite (surjective_pairing (Format f w range e)).
  rewrite (surjective_pairing (Format f' w' range e)).
  rewrite !Format_plain, !Format_entry by done.
  unfold plainLine, stampOf, fieldKeys. by rewrite Ht, Hs, Hl.
Qed.

(** X11.  In colored mode [DisableTimestamp] goes first: with it the line
    depends neither on [ShortTimestamp], nor on [TimestampFormat], nor on the
    elapsed seconds, nor on the time of the entry. *)
Theorem colored_DisableTimestamp (f : TextFormatter) (w : World)
    (range : list string) (e : Entry)
    (short : bool) (layout : string) (secs : Z) (t : time_Time) :
  isColored f w = true → DisableTimestamp f = true →
  snd (Format
         {| ForceColors := ForceColors f; DisableColors := DisableColors f;
            DisableTimestamp := DisableTimestamp f; ShortTimestamp := short;
            DisableSorting := DisableSorting f;
            IndentMultilineMessage := IndentMultilineMessage f;
            TimestampFormat := layout; SpacePadding := SpacePadding f |}
         {| isTerminal := isTerminal w; runtime_GOOS := runtime_GOOS w;
            miniTS := secs; caller_name := caller_name w;
            caller_file := caller_file w; caller_line := caller_line w |}
         range
         {| Data := Data e; Time := t; Level := Level e;
            Message := Message e |})
  = snd (Format f w range e).
Proof.
  intros Hc Ht. rewrite !Format_colored by done.
  unfold coloredLine, coloredHeader, coloredBody, visibleWidth, visibleHeader,
    stampBlock, messageFormat, fieldKeys, levelStyle, displayedMessage, tagOf.
  cbn [DisableTimestamp ShortTimestamp DisableSorting IndentMultilineMessage
       TimestampFormat SpacePadding caller_name caller_file caller_line
       Data Time Level Message].
  by rewrite Ht.
Qed.

(** X12.  The frame of the caller is read at the debug level only: at any
    other level the result does not depend on it. *)
Theorem caller_only_at_debug (f : TextFormatter) (w : World)
    (range : list string) (e : Entry) (name file : string) (line : Z) :
  Level e ≠ DebugLevel →
  Format f
    {| isTerminal := isTerminal w; runtime_GOOS := runtime_GOOS w;
       miniTS := miniTS w; caller_name := name; caller_file := file;
       caller_line := line |}
    range e
  = Format f w range e.
Proof.
  intros Hl. apply N.eqb_neq in Hl.
  set (w' := {| isTerminal := isTerminal w; caller_line := line |}).
  assert (levelStyle w' (Level e) = levelStyle w (Level e)) as Hs.
  { unfold levelStyle. rewrite Hl. done. }
  rewrite (surjective_pairing (Format f w' range e)).
  rewrite (surjective_pairing (Format f w range e)).
  rewrite !Format_entry. f_equal.
  destruct (isColored f w) eqn:Hc.
  - rewrite !Format_colored by done.
    unfold coloredLine, coloredHeader, coloredBody, visibleWidth,
      visibleHeader, stampBlock. by rewrite Hs.
  - by rewrite !Format_plain.
Qed.

(** X13.  An empty [TimestampFormat] stands for the layout [time.Stamp]. *)
Theorem empty_TimestampFormat (f : TextFormatter) (w : World)
    (range : list string) (e : Entry) :
  TimestampFormat f = "" →
  Format
    {| ForceColors := ForceColors f; DisableColors := DisableColors f;
       DisableTimestamp := DisableTimestamp f;
       ShortTimestamp := ShortTimestamp f;
       DisableSorting := DisableSorting f;
       IndentMultilineMessage := IndentMultilineMessage f;
       TimestampFormat := time_Stamp; SpacePadding := SpacePadding f |}
    w range e
  = Format f w range e.
Proof.
  intros Hl.
  set (f' := {| ForceColors := ForceColors f; SpacePadding := SpacePadding f |}).
  rewrite (surjective_pairing (Format f' w range e)).
  rewrite (surjective_pairing (Format f w range e)).
  rewrite !Format_entry. f_equal.
  assert (stampOf f' e = stampOf f e) as Hs.
  { unfold stampOf. cbn [TimestampFormat f']. rewrite Hl.
    by destruct (time_Stamp =? ""). }
  destruct (isColored f w) eqn:Hc.
  - rewrite !Format_colored by done.
    unfold coloredLine, coloredHeader, coloredBody, visibleWidth,
      visibleHeader, stampBlock. by rewrite Hs.
  - rewrite !Format_plain by done. unfold plainLine. by rewrite Hs.
Qed.

(** X14.  The two writers only append: what [appendKeyValue] and
    [printColored] add does not depend on what the buffer holds. *)
Theorem writers_append (f : TextFormatter) (w : World) (b : Buffer)
    (e : Entry) (keys : list string) (timestampFormat key : string)
    (v : Value) :
  appendKeyValue b key v = b +:+ appendKeyValue "" key v
  ∧ printColored f w b e keys timestampFormat
    = (λ s, b +:+ s) <$> printColored f w "" e keys timestampFormat.
Proof.
  split; [by rewrite !appendKeyValue_pairText |].
  unfold printColored.
  destruct (levelStyle w (Level e)) as [lc dbg].
  destruct (prefixAndMessage e) as [prefix message].
  unfold printField.
  destruct (IndentMultilineMessage f && strings_ContainsRune message NL).
  - destruct (strings_Repeat_space _); [| done]. cbn.
    by rewrite !foldl_write, !sapp_nil_l, !sapp_assoc.
  - cbn. by rewrite !foldl_write, !sapp_nil_l, !sapp_assoc.
Qed.

(** X15.  A level outside the six named ones is rendered as [unknown]: in
    colored mode in blue, with the label [UNKNOWN] and without the diagnostic
    of the debug level. *)
Theorem unknown_level (w : World) (level : logrus_Level) :
  (5 < level)%N →
  Level_String level = "unknown"
  ∧ levelStyle w level = (ansi_Blue, "")
  ∧ levelText level = "UNKNOWN".
Proof.
  intros Hl. unfold levelStyle, levelText, Level_String,
    PanicLevel, FatalLevel, ErrorLevel, WarnLevel, InfoLevel, DebugLevel.
  repeat match goal with
    | |- context [(level =? ?n)%N] =>
        destruct (N.eqb_spec level n); [lia |]
    end.
  done.
Qed.

(** X16.  The name of a level is never quoted in the non-colored line. *)
Theorem level_never_quoted (b : Buffer) (level : logrus_Level) :
  appendKeyValue b "level" (VString (Level_String level))
  = b +:+ "level=" +:+ Level_String level +:+ " ".
Proof.
  rewrite appendKeyValue_pairText. unfold pairText, valueText, Level_String.
  repeat match goal with
    | |- context [(level =? ?n)%N] => destruct (level =? n)%N
    end; done.
Qed.

End Options.

Lemma plain_ignores_colored_options_witness :
  Format (plainFormatter false) someWorld ["b"; "a"] abEntry
  = Format
      {| ForceColors := true; DisableColors := true; DisableTimestamp := true;
         ShortTimestamp := true; DisableSorting := false;
         IndentMultilineMessage := true; TimestampFormat := "";
         SpacePadding := 20 |}
      {| isTerminal := true; runtime_GOOS := "darwin"; miniTS := 75;
         caller_name := "pkg.f"; caller_file := "f.go"; caller_line := 1 |}
      ["b"; "a"] abEntry.
Proof.
  apply (plain_ignores_colored_options (lib := ttyLib)); vm_compute; reflexivity.
Defined.

Lemma colored_DisableTimestamp_witness :
  snd (Format
         {| ForceColors := true; DisableColors := false;
            DisableTimestamp := true; ShortTimestamp := true;
            DisableSorting := false; IndentMultilineMessage := false;
            TimestampFormat := "15:04"; SpacePadding := 0 |}
         {| isTerminal := false; runtime_GOOS := "linux"; miniTS := 99;
            caller_name := "main.main"; caller_file := "main.go";
            caller_line := 10 |}
         []
         (@Build_Entry ttyLib ∅ "Feb  3 00:00:00" InfoLevel
            "[worker] started job"))
  = snd (Format
           {| ForceColors := true; DisableColors := false;
              DisableTimestamp := true; ShortTimestamp := false;
              DisableSorting := false; IndentMultilineMessage := false;
              TimestampFormat := ""; SpacePadding := 0 |}
           someWorld [] workerEntry).
Proof.
  apply (colored_DisableTimestamp (lib := ttyLib)
           {| ForceColors := true; DisableColors := false;
              DisableTimestamp := true; ShortTimestamp := false;
              DisableSorting := false; IndentMultilineMessage := false;
              TimestampFormat := ""; SpacePadding := 0 |}
           someWorld [] workerEntry true "15:04" 99%Z "Feb  3 00:00:00");
    vm_compute; reflexivity.
Defined.

Lemma caller_only_at_debug_witness :
  Format colorFormatter
    {| isTerminal := isTerminal someWorld;
       runtime_GOOS := runtime_GOOS someWorld; miniTS := miniTS someWorld;
       caller_name := "pkg.f"; caller_file := "f.go"; caller_line := 1 |}
    [] workerEntry
  = Format colorFormatter someWorld [] workerEntry.
Proof.
  apply (caller_only_at_debug (lib := ttyLib) colorFormatter someWorld []
           workerEntry "pkg.f" "f.go" 1%Z).
  vm_compute. discriminate.
Defined.

Lemma empty_TimestampFormat_witness :
  Format
    {| ForceColors := ForceColors (plainFormatter false);
       DisableColors := DisableColors (plainFormatter false);
       DisableTimestamp := DisableTimestamp (plainFormatter false);
       ShortTimestamp := ShortTimestamp (plainFormatter false);
       DisableSorting := DisableSorting (plainFormatter false);
       IndentMultilineMessage := IndentMultilineMessage (plainFormatter false);
       TimestampFormat := @time_Stamp ttyLib;
       SpacePadding := SpacePadding (plainFormatter false) |}
    someWorld ["b"; "a"] abEntry
  = Format (plainFormatter false) someWorld ["b"; "a"] abEntry.
Proof.
  apply (empty_TimestampFormat (lib := ttyLib) (plainFormatter false)
           someWorld ["b"; "a"] abEntry).
  reflexivity.
Defined.

Lemma unknown_level_witness :
  Level_String 6%N = "unknown"
  ∧ levelStyle (lib := ttyLib) someWorld 6%N = (@ansi_Blue ttyLib, "")
  ∧ levelText 6%N = "UNKNOWN".
Proof. apply (unknown_level (lib := ttyLib) someWorld 6%N). reflexivity. Defined.

(** ** Quoting and the two paths *)

(** C5 (amended).  In non-colored mode every value of the line (the time, the
    level, the message and each field) is written by [appendKeyValue]: a
    string, and the message of an error, as it is exactly when each of its
    characters is an ASCII letter, an ASCII digit, [-] or [.], otherwise by
    [%q] as a quoted string; any other value by the default conversion. *)
Theorem plain_value_quoting `{lib : GoLib} (f : TextFormatter) (w : World)
    (range : list string) (e : Entry) :
  isColored f w = false →
  snd (Format f w range e) = Some (plainLine f e (fieldKeys f range), None)
  ∧ (∀ key v,
       pairText key v
       = key +:+ "="
         +:+ match v with
             | VString s | VError s => if unquoted s then s else strconv_Quote s
             | _ => fmt_v false v
             end
         +:+ " ")
  ∧ (∀ b key v, appendKeyValue b key v = b +:+ pairText key v).
Proof.
  intros Hc. split; [by apply Format_plain | split].
  - intros key v. unfold pairText, valueText. by destruct v.
  - intros b key v. apply appendKeyValue_pairText.
Qed.

Lemma plain_value_quoting_witness :
  snd (Format (plainFormatter false) someWorld ["k"; "e"]
         (mkEntry (<["k" := VString "hello world"]> {["e" := VError "bad thing"]})
            InfoLevel "hi"))
  = Some (plainLine (plainFormatter false)
            (mkEntry (<["k" := VString "hello world"]>
                        {["e" := VError "bad thing"]}) InfoLevel "hi")
            (fieldKeys (plainFormatter false) ["k"; "e"]), None).
Proof.
  refine (proj1 (plain_value_quoting (lib := ttyLib) (plainFormatter false)
                   someWorld ["k"; "e"]
                   (mkEntry (<["k" := VString "hello world"]>
                               {["e" := VError "bad thing"]}) InfoLevel "hi")
                   _)).
  vm_compute. reflexivity.
Defined.

(** C5 (counterexample).  In colored mode the fields are written with [%+v]:
    the string [hello world] and the error [bad thing], which both hold a
    space, come out without quotes, where the non-colored line of the same
    entry quotes them. *)
Lemma colored_values_unquoted :
  isColored colorFormatter someWorld = true
  ∧ is_range (<["k" := VString "hello world"]> {["e" := VError "bad thing"]})
      ["k"; "e"] = true
  ∧ unquoted "hello world" = false
  ∧ unquoted "bad thing" = false
  ∧ snd (Format colorFormatter someWorld ["k"; "e"]
           (mkEntry (<["k" := VString "hello world"]>
                       {["e" := VError "bad thing"]}) InfoLevel "hi"))
    = Some (ESC +:+ "[90m[0003]" +:+ ESC +:+ "[0m " +:+ ESC +:+ "[32m INFO"
            +:+ ESC +:+ "[0m hi " +:+ ESC +:+ "[32me" +:+ ESC
            +:+ "[0m=bad thing " +:+ ESC +:+ "[32mk" +:+ ESC
            +:+ "[0m=hello world" +:+ String NL "", None)
  ∧ snd (Format (plainFormatter false) someWorld ["k"; "e"]
           (mkEntry (<["k" := VString "hello world"]>
                       {["e" := VError "bad thing"]}) InfoLevel "hi"))
    = Some ("level=info msg=hi e=" +:+ DQ +:+ "bad thing" +:+ DQ +:+ " k="
            +:+ DQ +:+ "hello world" +:+ DQ +:+ " " +:+ String NL "", None).
Proof. vm_compute. done. Qed.
